(** * The SSH git middleware of soft-serve (server/ssh.go)

    A shallow embedding of [PublicKeyHandler], [KeyboardInteractiveHandler],
    [Middleware] and [sshFatal], and the properties of the dispatch they
    implement: which backend calls are made, in which order, and what is
    written to the client when a session is ended. *)

From Stdlib Require Import String Ascii List Bool ZArith Lia Sorted.
Import ListNotations.
Local Open Scope string_scope.
Local Open Scope list_scope.

(** ** Strings and paths (Go's [strings] and [path/filepath], Unix flavour) *)

Module strings.

(** [strings.HasPrefix s prefix]. *)
Definition HasPrefix (s prefix : string) : bool := String.prefix prefix s.

(** [strings.Split s sep] for a one-character separator. *)
Fixpoint Split (s : string) (sep : ascii) : list string :=
  match s with
  | EmptyString => [EmptyString]
  | String a rest =>
      if Ascii.eqb a sep then EmptyString :: Split rest sep
      else match Split rest sep with
           | [] => [String a EmptyString]
           | h :: t => String a h :: t
           end
  end.

(** [strings.Join elems sep]. *)
Definition Join (elems : list string) (sep : string) : string :=
  String.concat sep elems.

End strings.

Module filepath.

Definition Separator : ascii := "/"%char.

(** One element of the path met by [Clean]; [stack] holds the elements kept
    so far, last one first. *)
Definition clean_step (rooted : bool) (stack : list string) (elem : string)
  : list string :=
  if (elem =? "") || (elem =? ".") then stack
  else if elem =? ".." then
    match stack with
    | top :: below => if top =? ".." then elem :: stack else below
    | [] => if rooted then [] else [elem]
    end
  else elem :: stack.

(** [filepath.Clean]: single separators, no [.] element, no inner [..]
    element, no [..] at the start of a rooted path; the empty path is [.]. *)
Definition Clean (path : string) : string :=
  let rooted := strings.HasPrefix path "/" in
  let kept := rev (fold_left (clean_step rooted) (strings.Split path Separator) []) in
  let body := strings.Join kept "/" in
  if rooted then "/" ++ body
  else if body =? "" then "." else body.

(** [filepath.Join]: the elements from the first non-empty one on, joined
    by the separator and cleaned; the empty string when all are empty. *)
Fixpoint Join (elem : list string) : string :=
  match elem with
  | [] => ""
  | e :: rest =>
      if e =? "" then Join rest else Clean (strings.Join elem "/")
  end.

End filepath.

Arguments filepath.Join : simpl never.
Arguments filepath.Clean : simpl never.

(** ** Errors

    Go [error] values.  The three sentinels are package-level variables of
    the server package; every other error is a message, possibly wrapping
    another error (what [fmt.Errorf] with the wrap verb builds). *)

Inductive error : Type :=
| ErrNotAuthed
| ErrInvalidRepo
| ErrSystemMalfunction
| ErrNew (msg : string)
| ErrWrap (msg : string) (inner : error).

Fixpoint error_eqb (a b : error) : bool :=
  match a, b with
  | ErrNotAuthed, ErrNotAuthed => true
  | ErrInvalidRepo, ErrInvalidRepo => true
  | ErrSystemMalfunction, ErrSystemMalfunction => true
  | ErrNew m, ErrNew n => m =? n
  | ErrWrap m x, ErrWrap n y => (m =? n) && error_eqb x y
  | _, _ => false
  end.

Module errors.

(** [errors.Is err target]: [err] or an error it wraps is [target]. *)
Fixpoint Is (err target : error) : bool :=
  error_eqb err target ||
  match err with
  | ErrWrap _ inner => Is inner target
  | _ => false
  end.

End errors.

(** ** Access levels (package backend) *)

Module backend.

(** Modelled from the spec: the access levels are declared in the backend
    package, which is not among the sources; the spec gives the ordered
    enumeration NoAccess < ReadOnly < ReadWrite < Admin. *)
Inductive AccessLevel : Type :=
| NoAccess
| ReadOnlyAccess
| ReadWriteAccess
| AdminAccess.

(** The integer behind a level, as the comparisons of the source read it. *)
Definition to_int (a : AccessLevel) : Z :=
  match a with
  | NoAccess => 0
  | ReadOnlyAccess => 1
  | ReadWriteAccess => 2
  | AdminAccess => 3
  end.

Definition ltb (a b : AccessLevel) : bool := (to_int a <? to_int b)%Z.
Definition geb (a b : AccessLevel) : bool := (to_int a >=? to_int b)%Z.

End backend.

(** ** Sessions, the backend and the rest of the package *)

(** A public key as presented by the client (its marshalled form); a session
    without a key has [None], Go's nil interface. *)
Definition ssh_PublicKey : Type := string.

Record Session : Type := {
  Command : list string;
  PublicKey : option ssh_PublicKey
}.

(** The [Backend] interface of the configuration, over the state [store] the
    backend owns.  The repository handles returned by [Repository] and
    [CreateRepository] are dropped by every caller in this file, so only the
    error result is kept ([None] is Go's nil error). *)
Record Backend (store : Type) : Type := {
  AccessLevel : string -> option ssh_PublicKey -> store -> backend.AccessLevel;
  AllowKeyless : store -> bool;
  Repository : string -> store -> option error;
  CreateRepository : string -> bool -> store -> option error * store
}.
Arguments AccessLevel {store}.
Arguments AllowKeyless {store}.
Arguments Repository {store}.
Arguments CreateRepository {store}.

Record Config (store : Type) : Type := {
  DataPath : string;
  Backend_ : Backend store
}.
Arguments DataPath {store}.
Arguments Backend_ {store}.

(** What [Middleware] calls from the other files of the package: the name
    sanitizer of package utils, the confinement check and the three pack
    operations.  They are not among the sources, so the handlers are stated
    over any implementation of them.  Each pack operation reads and writes
    the session's streams and may change the repository store; it reports an
    error or nil.  What it writes to the streams is its own and is not
    recorded here. *)
Record Package (store : Type) : Type := {
  SanitizeRepo : string -> string;
  ensureWithin : string -> string -> option error;
  receivePack : Session -> string -> store -> option error * store;
  uploadPack : Session -> string -> store -> option error * store;
  uploadArchive : Session -> string -> store -> option error * store
}.
Arguments SanitizeRepo {store}.
Arguments ensureWithin {store}.
Arguments receivePack {store}.
Arguments uploadPack {store}.
Arguments uploadArchive {store}.

(** Modelled from the spec: the names of the three pack binaries are
    constants of the package declared outside the sources; the spec's command
    lines name them. *)
Definition receivePackBin : string := "git-receive-pack".
Definition uploadPackBin : string := "git-upload-pack".
Definition uploadArchiveBin : string := "git-upload-archive".

(** ** Effects

    Every call the handlers make on a collaborator is recorded, in order,
    with its arguments and its result. *)

Inductive PackOp : Type := OpReceivePack | OpUploadPack | OpUploadArchive.

Inductive Event : Type :=
| EvAccessLevel (repo : string) (pk : option ssh_PublicKey) (lvl : backend.AccessLevel)
| EvAllowKeyless (allowed : bool)
| EvEnsureWithin (reposDir repo : string) (res : option error)
| EvRepository (name : string) (res : option error)
| EvCreateRepository (name : string) (flag : bool) (res : option error)
| EvLogErrorf (format : string) (arg : error)
| EvPack (op : PackOp) (repoDir : string) (res : option error)
| EvWritePktline (v : error)
| EvExit (code : Z).

(** How a block of statements ends: it falls through with a value, or it
    executed a [return] of the enclosing function literal. *)
Inductive Flow (A : Type) : Type :=
| Next (a : A)
| Returned.
Arguments Next {A}.
Arguments Returned {A}.

Section Monad.

Variable store : Type.

(** A computation over the backend's store that records its events. *)
Definition M (A : Type) : Type := store -> Flow A * store * list Event.

Definition ret {A} (a : A) : M A := fun st => (Next a, st, []).

Definition bind {A B} (m : M A) (k : A -> M B) : M B :=
  fun st =>
    match m st with
    | (Next a, st1, t1) =>
        match k a st1 with
        | (r, st2, t2) => (r, st2, t1 ++ t2)
        end
    | (Returned, st1, t1) => (Returned, st1, t1)
    end.

(** Go's [return] inside the function literal. *)
Definition go_return {A} : M A := fun st => (Returned, st, []).

Definition emit (e : Event) : M unit := fun st => (Next tt, st, [e]).

(** A call of a function literal: a [return] inside ends the literal only. *)
Definition call {A} (m : M A) : M unit :=
  fun st =>
    match m st with
    | (_, st1, t1) => (Next tt, st1, t1)
    end.

Definition when (b : bool) (m : M unit) : M unit :=
  if b then m else ret tt.

Definition events {A} (m : M A) (st : store) : list Event := snd (m st).
Definition final {A} (m : M A) (st : store) : store := snd (fst (m st)).
Definition flow {A} (m : M A) (st : store) : Flow A := fst (fst (m st)).

End Monad.

Arguments ret {store A}.
Arguments bind {store A B}.
Arguments go_return {store A}.
Arguments emit {store}.
Arguments call {store A}.
Arguments when {store}.
Arguments events {store A}.
Arguments final {store A}.
Arguments flow {store A}.

Declare Scope go_scope.
Delimit Scope go_scope with go.
Notation "x <- m ;; k" := (bind m (fun x => k))
  (at level 61, m at next level, right associativity) : go_scope.
Notation "m ;; k" := (bind m (fun _ => k))
  (at level 61, right associativity) : go_scope.
Local Open Scope go_scope.

(** ** The handlers of server/ssh.go *)

Section Server.

Context {store : Type}.
Variable pkg : Package store.

(** *** Calls on the collaborators, each recorded with its result *)

Definition call_AccessLevel (b : Backend store) (repo : string)
  (pk : option ssh_PublicKey) : M store backend.AccessLevel :=
  fun st =>
    let lvl := AccessLevel b repo pk st in
    (Next lvl, st, [EvAccessLevel repo pk lvl]).

Definition call_AllowKeyless (b : Backend store) : M store bool :=
  fun st =>
    let allowed := AllowKeyless b st in
    (Next allowed, st, [EvAllowKeyless allowed]).

Definition call_Repository (b : Backend store) (name : string) : M store (option error) :=
  fun st =>
    let res := Repository b name st in
    (Next res, st, [EvRepository name res]).

Definition call_CreateRepository (b : Backend store) (name : string) (flag : bool)
  : M store (option error) :=
  fun st =>
    match CreateRepository b name flag st with
    | (res, st') => (Next res, st', [EvCreateRepository name flag res])
    end.

Definition call_ensureWithin (reposDir repo : string) : M store (option error) :=
  fun st =>
    let res := ensureWithin pkg reposDir repo in
    (Next res, st, [EvEnsureWithin reposDir repo res]).

Definition call_pack (op : PackOp)
  (f : Session -> string -> store -> option error * store)
  (s : Session) (repoDir : string) : M store (option error) :=
  fun st =>
    match f s repoDir st with
    | (res, st') => (Next res, st', [EvPack op repoDir res])
    end.

(** [sshFatal]: one pkt-line with the given value on the session's output,
    then exit status 1.  [writePktline] is declared in another file of the
    package; the line it writes is recorded with the value it is given. *)
Definition sshFatal (s : Session) (v : error) : M store unit :=
  emit (EvWritePktline v) ;;
  emit (EvExit 1).

(** [PublicKeyHandler] (its context argument is not used). *)
Definition PublicKeyHandler (cfg : Config store) (pk : option ssh_PublicKey) : M store bool :=
  lvl <- call_AccessLevel (Backend_ cfg) "" pk ;;
  ret (backend.geb lvl backend.ReadOnlyAccess).

(** [KeyboardInteractiveHandler]: Go's [&&] evaluates its right operand
    only when the left one is true. *)
Definition KeyboardInteractiveHandler (cfg : Config store) : M store bool :=
  allowed <- call_AllowKeyless (Backend_ cfg) ;;
  if allowed then PublicKeyHandler cfg None else ret false.

(** The function literal that [Middleware]'s handler calls before it hands
    the session to the next handler. *)
Definition Middleware_body (cfg : Config store) (s : Session) : M store unit :=
  let cmd := Command s in
  when ((2 <=? length cmd)%nat && strings.HasPrefix (nth 0 cmd "") "git") (
    let gc := nth 0 cmd "" in
    let name := SanitizeRepo pkg (nth 1 cmd "") in
    let pk := PublicKey s in
    access <- call_AccessLevel (Backend_ cfg) name pk ;;
    let repo := (name ++ ".git")%string in
    let reposDir := filepath.Join [DataPath cfg; "repos"] in
    err <- call_ensureWithin reposDir repo ;;
    match err with
    | Some err => sshFatal s err ;; go_return
    | None => ret tt
    end ;;
    let repoDir := filepath.Join [reposDir; repo] in
    if gc =? receivePackBin then
      when (backend.ltb access backend.ReadWriteAccess)
        (sshFatal s ErrNotAuthed ;; go_return) ;;
      found <- call_Repository (Backend_ cfg) name ;;
      match found with
      | Some _ =>
          created <- call_CreateRepository (Backend_ cfg) name false ;;
          match created with
          | Some err =>
              emit (EvLogErrorf "failed to create repo: %s" err) ;;
              sshFatal s err ;;
              go_return
          | None => ret tt
          end
      | None => ret tt
      end ;;
      err <- call_pack OpReceivePack (receivePack pkg) s repoDir ;;
      match err with
      | Some _ => sshFatal s ErrSystemMalfunction
      | None => ret tt
      end ;;
      go_return
    else if (gc =? uploadPackBin) || (gc =? uploadArchiveBin) then
      when (backend.ltb access backend.ReadOnlyAccess)
        (sshFatal s ErrNotAuthed ;; go_return) ;;
      let gitPack :=
        if gc =? uploadArchiveBin
        then call_pack OpUploadArchive (uploadArchive pkg)
        else call_pack OpUploadPack (uploadPack pkg) in
      err <- gitPack s repoDir ;;
      match err with
      | Some e =>
          if errors.Is e ErrInvalidRepo then sshFatal s ErrInvalidRepo
          else sshFatal s ErrSystemMalfunction
      | None => ret tt
      end
    else ret tt).

(** [Middleware cfg sh]: the handler that runs the literal above and then
    the next handler [sh], whatever the literal did. *)
Definition Middleware (cfg : Config store) (sh : Session -> M store unit) (s : Session)
  : M store unit :=
  call (Middleware_body cfg s) ;;
  sh s.

End Server.

(** ** Reading a record of events *)

(** The pkt-lines written to the client, in order. *)
Definition client_output (t : list Event) : list error :=
  flat_map (fun e => match e with EvWritePktline v => [v] | _ => [] end) t.

(** The exit statuses set on the session, in order. *)
Definition exit_statuses (t : list Event) : list Z :=
  flat_map (fun e => match e with EvExit c => [c] | _ => [] end) t.

(** What the server log received. *)
Definition server_log (t : list Event) : list error :=
  flat_map (fun e => match e with EvLogErrorf _ v => [v] | _ => [] end) t.

(** The arguments of the access-level queries put to the backend. *)
Definition access_queries (t : list Event) : list (string * option ssh_PublicKey) :=
  flat_map (fun e => match e with EvAccessLevel r k _ => [(r, k)] | _ => [] end) t.

Definition is_repository_lookup (e : Event) : bool :=
  match e with EvRepository _ _ => true | _ => false end.

Definition is_create (e : Event) : bool :=
  match e with EvCreateRepository _ _ _ => true | _ => false end.

Definition is_pack (e : Event) : bool :=
  match e with EvPack _ _ _ => true | _ => false end.

(** An event that reads or changes the repository store or runs a pack
    operation. *)
Definition touches_repository (e : Event) : bool :=
  is_repository_lookup e || is_create e || is_pack e.




(** ** A concrete server: the absent helpers after the spec, a small backend *)

Module demo.

(** The store of the demonstration backend: the names of its repositories. *)
Definition store : Type := list string.

Fixpoint trim_left_separators (s : string) : string :=
  match s with
  | String a rest => if Ascii.eqb a filepath.Separator then trim_left_separators rest else s
  | EmptyString => s
  end.

Definition TrimSuffix (s suffix : string) : string :=
  let n := String.length s in
  let k := String.length suffix in
  if (k <=? n)%nat && (substring (n - k) k s =? suffix)
  then substring 0 (n - k) s else s.

(** Modelled from the spec: [utils.SanitizeRepo] is not among the sources.
    The spec's sanitizer strips leading path separators, collapses
    traversal segments and leaves the name without its [.git] suffix
    (the command [a/b.git] names the repository [a/b]). *)
Definition SanitizeRepo_model (repo : string) : string :=
  TrimSuffix (filepath.Clean (trim_left_separators repo)) ".git".

Definition components (path : string) : list string :=
  filter (fun e => negb (e =? "")) (strings.Split path filepath.Separator).

Fixpoint strict_prefix (xs ys : list string) : bool :=
  match xs, ys with
  | [], _ :: _ => true
  | x :: xs', y :: ys' => (x =? y) && strict_prefix xs' ys'
  | _, _ => false
  end.

(** Modelled from the spec: [ensureWithin] is not among the sources.  The
    spec's check resolves the candidate against the root and accepts it
    when the components of the result are a strict descendant of the
    root's; an escape is reported as a system malfunction. *)
Definition ensureWithin_model (reposDir repo : string) : option error :=
  if strict_prefix (components (filepath.Clean reposDir))
                   (components (filepath.Join [reposDir; repo]))
  then None else Some ErrSystemMalfunction.

Definition has (name : string) (st : store) : bool :=
  existsb (String.eqb name) st.

(** The policy: [admin] may do everything, [alice] may write everywhere
    but has no access to the repository [private], everyone else and the
    anonymous user may read, [mallory] may do nothing. *)
Definition policy (repo : string) (pk : option ssh_PublicKey) (st : store)
  : backend.AccessLevel :=
  match pk with
  | None => backend.ReadOnlyAccess
  | Some k =>
      if k =? "admin" then backend.AdminAccess
      else if k =? "alice" then
        if repo =? "private" then backend.NoAccess else backend.ReadWriteAccess
      else if k =? "mallory" then backend.NoAccess
      else backend.ReadOnlyAccess
  end.

(** The lookup fails for a repository the store lacks, and also, with an
    error of another kind, for the repository [flaky]. *)
Definition lookup (name : string) (st : store) : option error :=
  if name =? "flaky" then Some (ErrNew "database is locked")
  else if has name st then None
  else Some (ErrNew "repository not found").

Definition create (name : string) (flag : bool) (st : store) : option error * store :=
  if name =? "full"
  then (Some (ErrNew "mkdir /srv/soft-serve/repos/full.git: no space left on device"), st)
  else if has name st then (Some (ErrNew "repository already exists"), st)
  else (None, name :: st).

Definition be : Backend store := {|
  AccessLevel := policy;
  AllowKeyless := fun _ => true;
  Repository := lookup;
  CreateRepository := create
|}.

Definition cfg : Config store := {|
  DataPath := "/srv/soft-serve";
  Backend_ := be
|}.

Definition dir_of (name : string) : string :=
  filepath.Join ["/srv/soft-serve/repos"; (name ++ ".git")%string].

(** A fetch of a directory that holds no repository reports an error that
    wraps [ErrInvalidRepo]; the repository [broken] fails otherwise. *)
Definition fetch (s : Session) (repoDir : string) (st : store) : option error * store :=
  if repoDir =? dir_of "broken" then (Some (ErrNew "fatal: bad object HEAD"), st)
  else if existsb (fun n => repoDir =? dir_of n) st then (None, st)
  else (Some (ErrWrap "open repository" ErrInvalidRepo), st).

Definition push (s : Session) (repoDir : string) (st : store) : option error * store :=
  (None, st).

Definition pkg : Package store := {|
  SanitizeRepo := SanitizeRepo_model;
  ensureWithin := ensureWithin_model;
  receivePack := push;
  uploadPack := fetch;
  uploadArchive := fetch
|}.

Definition session (cmd : list string) (pk : option ssh_PublicKey) : Session :=
  {| Command := cmd; PublicKey := pk |}.

(** The repositories present at the start of each run below. *)
Definition st0 : store := ["site"; "private"; "flaky"; "broken"].

End demo.

(** ** Names for the local variables of [Middleware] *)

Section Locals.

Context {store : Type}.
Variable pkg : Package store.
Variable cfg : Config store.

(** The guard of the literal: at least two tokens, the first one starting
    with [git]. *)
Definition git_command (s : Session) : bool :=
  (2 <=? length (Command s))%nat && strings.HasPrefix (nth 0 (Command s) "") "git".

Definition gc_of (s : Session) : string := nth 0 (Command s) "".

Definition name_of (s : Session) : string :=
  SanitizeRepo pkg (nth 1 (Command s) "").

Definition repo_of (s : Session) : string := (name_of s ++ ".git")%string.

Definition reposDir_of : string := filepath.Join [DataPath cfg; "repos"].

Definition repoDir_of (s : Session) : string :=
  filepath.Join [reposDir_of; repo_of s].

Definition access_of (s : Session) (st : store) : backend.AccessLevel :=
  AccessLevel (Backend_ cfg) (name_of s) (PublicKey s) st.

Definition confinement_of (s : Session) : option error :=
  ensureWithin pkg reposDir_of (repo_of s).

(** The two events every git session starts with. *)
Definition preamble (s : Session) (st : store) : list Event :=
  [EvAccessLevel (name_of s) (PublicKey s) (access_of s st);
   EvEnsureWithin reposDir_of (repo_of s) (confinement_of s)].

(** The pack operation the upload branch selects. *)
Definition upload_op (s : Session) : PackOp :=
  if gc_of s =? uploadArchiveBin then OpUploadArchive else OpUploadPack.

Definition upload_fn (s : Session)
  : Session -> string -> store -> option error * store :=
  if gc_of s =? uploadArchiveBin then uploadArchive pkg else uploadPack pkg.

End Locals.

(** ** The runs of [Middleware_body], branch by branch *)

(** What [sshFatal] leaves in the record. *)
Definition fatal (v : error) : list Event := [EvWritePktline v; EvExit 1].

(** The reply to the result of receive-pack: any error is answered with the
    generic one. *)
Definition push_reply (r : option error) : list Event :=
  match r with
  | Some _ => fatal ErrSystemMalfunction
  | None => []
  end.

(** The reply to the result of upload-pack and upload-archive. *)
Definition upload_reply (r : option error) : list Event :=
  match r with
  | Some e => if errors.Is e ErrInvalidRepo then fatal ErrInvalidRepo
              else fatal ErrSystemMalfunction
  | None => []
  end.

Section Outcome.

Context {store : Type}.
Variable pkg : Package store.
Variable cfg : Config store.
Variable s : Session.
Variable st : store.

Let name := name_of pkg s.
Let repoDir := repoDir_of pkg cfg s.
Let access := access_of pkg cfg s st.
Let pre := preamble pkg cfg s st.

(** The possible runs of the literal on session [s] from store [st]: how
    it ends, the store it leaves and the events it records. *)
Inductive Outcome : Flow unit * store * list Event -> Prop :=
| out_not_git :
    git_command s = false ->
    Outcome (Next tt, st, [])
| out_escape (err : error) :
    git_command s = true ->
    confinement_of pkg cfg s = Some err ->
    Outcome (Returned, st, pre ++ fatal err)
| out_push_denied :
    git_command s = true ->
    confinement_of pkg cfg s = None ->
    gc_of s = receivePackBin ->
    backend.ltb access backend.ReadWriteAccess = true ->
    Outcome (Returned, st, pre ++ fatal ErrNotAuthed)
| out_push_existing (r : option error) (st2 : store) :
    git_command s = true ->
    confinement_of pkg cfg s = None ->
    gc_of s = receivePackBin ->
    backend.ltb access backend.ReadWriteAccess = false ->
    Repository (Backend_ cfg) name st = None ->
    receivePack pkg s repoDir st = (r, st2) ->
    Outcome (Returned, st2,
             pre ++ [EvRepository name None; EvPack OpReceivePack repoDir r]
                 ++ push_reply r)
| out_push_created (e : error) (st1 : store) (r : option error) (st2 : store) :
    git_command s = true ->
    confinement_of pkg cfg s = None ->
    gc_of s = receivePackBin ->
    backend.ltb access backend.ReadWriteAccess = false ->
    Repository (Backend_ cfg) name st = Some e ->
    CreateRepository (Backend_ cfg) name false st = (None, st1) ->
    receivePack pkg s repoDir st1 = (r, st2) ->
    Outcome (Returned, st2,
             pre ++ [EvRepository name (Some e);
                     EvCreateRepository name false None;
                     EvPack OpReceivePack repoDir r]
                 ++ push_reply r)
| out_push_create_failed (e err : error) (st1 : store) :
    git_command s = true ->
    confinement_of pkg cfg s = None ->
    gc_of s = receivePackBin ->
    backend.ltb access backend.ReadWriteAccess = false ->
    Repository (Backend_ cfg) name st = Some e ->
    CreateRepository (Backend_ cfg) name false st = (Some err, st1) ->
    Outcome (Returned, st1,
             pre ++ [EvRepository name (Some e);
                     EvCreateRepository name false (Some err);
                     EvLogErrorf "failed to create repo: %s" err]
                 ++ fatal err)
| out_fetch_denied :
    git_command s = true ->
    confinement_of pkg cfg s = None ->
    gc_of s = uploadPackBin \/ gc_of s = uploadArchiveBin ->
    backend.ltb access backend.ReadOnlyAccess = true ->
    Outcome (Returned, st, pre ++ fatal ErrNotAuthed)
| out_fetch (r : option error) (st2 : store) :
    git_command s = true ->
    confinement_of pkg cfg s = None ->
    gc_of s = uploadPackBin \/ gc_of s = uploadArchiveBin ->
    backend.ltb access backend.ReadOnlyAccess = false ->
    upload_fn pkg s s repoDir st = (r, st2) ->
    Outcome (Next tt, st2,
             pre ++ [EvPack (upload_op s) repoDir r] ++ upload_reply r)
| out_other :
    git_command s = true ->
    confinement_of pkg cfg s = None ->
    gc_of s <> receivePackBin ->
    gc_of s <> uploadPackBin ->
    gc_of s <> uploadArchiveBin ->
    Outcome (Next tt, st, pre).

End Outcome.

(** ** Properties of a record of events *)





(** The property as the spec words it: the connection is accepted and the
    operation is authorized on the same query to the backend. *)
Definition same_access_query {store : Type} (pkg : Package store)
  (cfg : Config store) (s : Session) (st : store) : Prop :=
  access_queries (events (PublicKeyHandler cfg (PublicKey s)) st) =
  access_queries (events (Middleware_body pkg cfg s) st).

(** The errors of the creations that failed, in order. *)
Definition create_errors (t : list Event) : list error :=
  flat_map (fun e => match e with
                     | EvCreateRepository _ _ (Some err) => [err]
                     | _ => []
                     end) t.


Section Concerns.

Context {store : Type}.
Variable pkg : Package store.
Variable cfg : Config store.
Variable s : Session.

(** [concerns ev]: the call recorded by [ev] is about the repository the
    session names: the backend is asked about the sanitized name with the
    session's key, creation passes the flag [false], and the confinement
    check and the pack operations get the repository directory and the
    name with its suffix. *)
Definition concerns (ev : Event) : Prop :=
  match ev with
  | EvAccessLevel repo pk _ => repo = name_of pkg s /\ pk = PublicKey s
  | EvRepository name _ => name = name_of pkg s
  | EvCreateRepository name flag _ => name = name_of pkg s /\ flag = false
  | EvEnsureWithin reposDir repo _ =>
      reposDir = reposDir_of cfg /\ repo = (name_of pkg s ++ ".git")%string
  | EvPack _ repoDir _ =>
      repoDir = filepath.Join [reposDir_of cfg; (name_of pkg s ++ ".git")%string]
  | _ => True
  end.

End Concerns.

(** ** The construction of the server ([NewSSHServer]) *)

Module time.

(** The value a signed 64-bit integer holds when the exact result is [z]. *)
Definition int64 (z : Z) : Z := ((z + 2 ^ 63) mod 2 ^ 64 - 2 ^ 63)%Z.

(** [time.Second], in nanoseconds, the unit of [time.Duration]. *)
Definition Second : Z := 1000000000.

(** The product of two durations. *)
Definition mul (a b : Z) : Z := int64 (a * b).

End time.

Module config.

(** Modelled from the spec: the SSH part of the configuration is declared in
    the config package, which is not among the sources.  [NewSSHServer]
    reads these four fields of it; the two timeouts are integers, in
    seconds. *)
Record SSH : Type := {
  ListenAddr : string;
  KeyPath : string;
  MaxTimeout : Z;
  IdleTimeout : Z
}.

End config.

Module ssh.

(** The server of the ssh library: the two timeouts, which [NewSSHServer]
    sets, and the rest of it, which this file does not touch. *)
Record Server (impl : Type) : Type := {
  MaxTimeout : Z;
  IdleTimeout : Z;
  rest : impl
}.
Arguments MaxTimeout {impl}.
Arguments IdleTimeout {impl}.
Arguments rest {impl}.

End ssh.

Module wish.

(** The middlewares [NewSSHServer] lists, by name: the recovering one with
    the middlewares it wraps, the interactive one, the one of the command
    line with the hooks it is given, the git one of this file and the
    logging one. *)
#[warnings="-register-all"]
Inductive Middleware (hooks : Type) : Type :=
| Recover (wrapped : list (Middleware hooks))
| BubbleTea
| CLI (h : hooks)
| Git
| Logging.
Arguments Recover {hooks}.
Arguments BubbleTea {hooks}.
Arguments CLI {hooks}.
Arguments Git {hooks}.
Arguments Logging {hooks}.

(** The options [NewSSHServer] passes to [wish.NewServer]. *)
Inductive Option (hooks : Type) : Type :=
| PublicKeyAuth
| KeyboardInteractiveAuth
| WithAddress (addr : string)
| WithHostKeyPath (path : string)
| WithMiddleware (mw : list (Middleware hooks)).
Arguments PublicKeyAuth {hooks}.
Arguments KeyboardInteractiveAuth {hooks}.
Arguments WithAddress {hooks}.
Arguments WithHostKeyPath {hooks}.
Arguments WithMiddleware {hooks}.

End wish.

(** The configuration as [NewSSHServer] reads it: the part the handlers
    use and the SSH part. *)
Record ServerConfig (store : Type) : Type := {
  handlers : Config store;
  SSH : config.SSH
}.
Arguments handlers {store}.
Arguments SSH {store}.

Record SSHServer (store impl : Type) : Type := {
  srv : ssh.Server impl;
  cfg : ServerConfig store
}.
Arguments srv {store impl}.
Arguments cfg {store impl}.

Section NewSSHServer.

Context {store hooks impl : Type}.

(** [wish.NewServer], of the wish library: a server built from the options,
    or an error. *)
Variable NewServer : list (wish.Option hooks) -> ssh.Server impl + error.

(** The options of the call of [wish.NewServer]. *)
Definition server_options (c : ServerConfig store) (h : hooks)
  : list (wish.Option hooks) :=
  let mw :=
    [wish.Recover [wish.BubbleTea; wish.CLI h; wish.Git; wish.Logging]] in
  [wish.PublicKeyAuth;
   wish.KeyboardInteractiveAuth;
   wish.WithAddress (config.ListenAddr (SSH c));
   wish.WithHostKeyPath
     (filepath.Join [DataPath (handlers c); config.KeyPath (SSH c)]);
   wish.WithMiddleware mw].

(** [NewSSHServer]: the server of [wish.NewServer] with the configured
    timeouts, each set only when it is positive; the error of
    [wish.NewServer] when it fails. *)
Definition NewSSHServer (c : ServerConfig store) (h : hooks)
  : SSHServer store impl + error :=
  match NewServer (server_options c h) with
  | inr err => inr err
  | inl srv0 =>
      let srv1 :=
        if (config.MaxTimeout (SSH c) >? 0)%Z
        then {| ssh.MaxTimeout := time.mul (config.MaxTimeout (SSH c)) time.Second;
                ssh.IdleTimeout := ssh.IdleTimeout srv0;
                ssh.rest := ssh.rest srv0 |}
        else srv0 in
      let srv2 :=
        if (config.IdleTimeout (SSH c) >? 0)%Z
        then {| ssh.MaxTimeout := ssh.MaxTimeout srv1;
                ssh.IdleTimeout := time.mul (config.IdleTimeout (SSH c)) time.Second;
                ssh.rest := ssh.rest srv1 |}
        else srv1 in
      inl {| srv := srv2; cfg := c |}
  end.

End NewSSHServer.

(** The reply the literal gives to the result [r] of the pack operation
    [op]. *)
Definition reply_to (op : PackOp) (r : option error) : list error :=
  match r, op with
  | None, _ => []
  | Some _, OpReceivePack => [ErrSystemMalfunction]
  | Some e, _ =>
      if errors.Is e ErrInvalidRepo then [ErrInvalidRepo] else [ErrSystemMalfunction]
  end.

(** How a configured timeout of [seconds] becomes the server's timeout
    [set], in nanoseconds, where [unset] is the timeout [wish.NewServer]
    gave the server: nothing is set for a value that is not positive; up to
    9223372036 seconds the product is exact; from there up to 18446744073
    seconds it has wrapped around to a negative duration. *)
Definition timeout_rule (seconds unset set : Z) : Prop :=
  ((seconds <= 0)%Z -> set = unset) /\
  ((0 < seconds <= 9223372036)%Z -> set = (seconds * 1000000000)%Z) /\
  ((9223372036 < seconds <= 18446744073)%Z ->
   set = (seconds * 1000000000 - 2 ^ 64)%Z /\ (set < 0)%Z).

(** ** Proofs: every run is one of the runs of [Outcome] *)

Ltac unfold_go :=
  unfold Middleware, Middleware_body, PublicKeyHandler, KeyboardInteractiveHandler,
    sshFatal, call_AccessLevel, call_AllowKeyless, call_Repository,
    call_CreateRepository, call_ensureWithin, call_pack,
    call, when, bind, ret, emit, go_return, events, final, flow.

Ltac unfold_locals :=
  unfold preamble, upload_op, upload_fn, access_of, confinement_of, repoDir_of,
    reposDir_of, repo_of, name_of, gc_of, git_command in *.

Lemma ltb_lt (a b : backend.AccessLevel) :
  backend.ltb a b = true <-> (backend.to_int a < backend.to_int b)%Z.
Proof. unfold backend.ltb. apply Z.ltb_lt. Qed.

Lemma ltb_ge (a b : backend.AccessLevel) :
  backend.ltb a b = false <-> (backend.to_int b <= backend.to_int a)%Z.
Proof. unfold backend.ltb. apply Z.ltb_ge. Qed.

Lemma eqb_false_neq (a b : string) : (a =? b) = false -> a <> b.
Proof. intros H. apply String.eqb_neq. exact H. Qed.

Lemma eqb_true_eq (a b : string) : (a =? b) = true -> a = b.
Proof. intros H. apply String.eqb_eq. exact H. Qed.

(** Every run of the literal is one of the runs of [Outcome]. *)
Lemma Middleware_body_outcome {store : Type} (pkg : Package store)
  (cfg : Config store) (s : Session) (st : store) :
  Outcome pkg cfg s st (Middleware_body pkg cfg s st).
Proof.
  destruct (git_command s) eqn:Hg.
  2:{ replace (Middleware_body pkg cfg s st) with (@Next unit tt, st, @nil Event).
      - now apply out_not_git.
      - unfold_locals. unfold_go. now rewrite Hg. }
  destruct (confinement_of pkg cfg s) as [err|] eqn:Hc.
  { replace (Middleware_body pkg cfg s st)
      with (@Returned unit, st, preamble pkg cfg s st ++ fatal err).
    - now apply out_escape.
    - unfold_locals. unfold_go. rewrite Hg. cbn. now rewrite Hc. }
  destruct (gc_of s =? receivePackBin) eqn:Hrecv.
  { pose proof (eqb_true_eq _ _ Hrecv) as Hgc.
    destruct (backend.ltb (access_of pkg cfg s st) backend.ReadWriteAccess) eqn:Ha.
    { replace (Middleware_body pkg cfg s st)
        with (@Returned unit, st, preamble pkg cfg s st ++ fatal ErrNotAuthed).
      - now apply out_push_denied.
      - unfold_locals. unfold_go. rewrite Hg. cbn. rewrite Hc, Hrecv. cbn.
        now rewrite Ha. }
    destruct (Repository (Backend_ cfg) (name_of pkg s) st) as [e|] eqn:Hl.
    - destruct (CreateRepository (Backend_ cfg) (name_of pkg s) false st)
        as [[err|] st1] eqn:Hcr.
      + eapply eq_ind; [eapply out_push_create_failed; eassumption|].
        unfold_locals. unfold_go. rewrite Hg. cbn. rewrite Hc, Hrecv. cbn.
        rewrite Ha. cbn. rewrite Hl, Hcr. reflexivity.
      + destruct (receivePack pkg s (repoDir_of pkg cfg s) st1) as [r st2] eqn:Hp.
        eapply eq_ind; [eapply out_push_created; eassumption|].
        unfold_locals. unfold_go. rewrite Hg. cbn. rewrite Hc, Hrecv. cbn.
        rewrite Ha. cbn. rewrite Hl, Hcr. cbn. rewrite Hp.
        destruct r; reflexivity.
    - destruct (receivePack pkg s (repoDir_of pkg cfg s) st) as [r st2] eqn:Hp.
      eapply eq_ind; [eapply out_push_existing; eassumption|].
      unfold_locals. unfold_go. rewrite Hg. cbn. rewrite Hc, Hrecv. cbn.
      rewrite Ha. cbn. rewrite Hl. cbn. rewrite Hp.
      destruct r; reflexivity. }
  destruct ((gc_of s =? uploadPackBin) || (gc_of s =? uploadArchiveBin)) eqn:Hup.
  { assert (Hgc : gc_of s = uploadPackBin \/ gc_of s = uploadArchiveBin).
    { apply orb_true_iff in Hup. destruct Hup as [H|H]; [left|right];
        now apply eqb_true_eq. }
    destruct (backend.ltb (access_of pkg cfg s st) backend.ReadOnlyAccess) eqn:Ha.
    { replace (Middleware_body pkg cfg s st)
        with (@Returned unit, st, preamble pkg cfg s st ++ fatal ErrNotAuthed).
      - now apply out_fetch_denied.
      - unfold_locals. unfold_go. rewrite Hg. cbn. rewrite Hc, Hrecv, Hup. cbn.
        now rewrite Ha. }
    destruct (upload_fn pkg s s (repoDir_of pkg cfg s) st) as [r st2] eqn:Hp.
    eapply eq_ind; [eapply out_fetch; eassumption|].
    unfold_locals. unfold_go. rewrite Hg. cbn. rewrite Hc, Hrecv, Hup. cbn.
    rewrite Ha. cbn.
    destruct (nth 0 (Command s) "" =? uploadArchiveBin); rewrite Hp;
      destruct r as [e|]; try reflexivity;
      unfold upload_reply; destruct (errors.Is e ErrInvalidRepo); reflexivity. }
  apply orb_false_iff in Hup. destruct Hup as [Hu Har].
  replace (Middleware_body pkg cfg s st)
    with (@Next unit tt, st, preamble pkg cfg s st).
  - apply out_other; auto using eqb_false_neq.
  - unfold_locals. unfold_go. rewrite Hg. cbn. rewrite Hc, Hrecv, Hu, Har.
    reflexivity.
Qed.

(** ** Proof automation over the runs *)

(** Closes the runs of [Outcome] that contradict the hypotheses at hand. *)
Ltac conflict :=
  try congruence;
  try (unfold receivePackBin, uploadPackBin, uploadArchiveBin in *;
       intuition congruence).

(** Two results of one call are the same result. *)
Ltac same_call :=
  repeat match goal with
  | H1 : ?x = _, H2 : ?x = _ |- _ =>
      rewrite H1 in H2; inversion H2; subst; clear H2
  end.

(** Splits a goal about [Middleware_body pkg cfg s st] into the runs of
    [Outcome], keeping the possible ones. *)
Ltac by_outcome pkg cfg s st :=
  let H := fresh "Hrun" in
  let run := fresh "run" in
  let E := fresh "Erun" in
  pose proof (Middleware_body_outcome pkg cfg s st) as H;
  unfold Middleware, call, bind, events, final, flow in *;
  remember (Middleware_body pkg cfg s st) as run eqn:E;
  clear E; destruct H; conflict; cbn [fst snd] in *.

(** The events of the blocks the runs are made of. *)

Lemma in_fatal (ev : Event) (v : error) :
  In ev (fatal v) -> ev = EvWritePktline v \/ ev = EvExit 1.
Proof. cbn. intuition. Qed.

Lemma in_push_reply (ev : Event) (r : option error) :
  In ev (push_reply r) -> ev = EvWritePktline ErrSystemMalfunction \/ ev = EvExit 1.
Proof. destruct r; cbn; intuition. Qed.

Lemma in_upload_reply (ev : Event) (r : option error) :
  In ev (upload_reply r) ->
  ev = EvWritePktline ErrInvalidRepo \/
  ev = EvWritePktline ErrSystemMalfunction \/
  ev = EvExit 1.
Proof.
  destruct r as [e|]; cbn; [|intuition].
  destruct (errors.Is e ErrInvalidRepo); cbn; intuition.
Qed.

(** Turns [H : In ev t], for the record [t] of a run, into the cases
    [ev = ...], one per event of [t]. *)
Ltac in_events H :=
  repeat
    match type of H with
    | In _ (_ ++ _) => apply in_app_or in H; destruct H as [H|H]
    | In _ (preamble _ _ _ _) => unfold preamble in H
    | In _ (fatal _) => apply in_fatal in H; destruct H as [H|H]
    | In _ (push_reply _) => apply in_push_reply in H; destruct H as [H|H]
    | In _ (upload_reply _) => apply in_upload_reply in H; destruct H as [H|[H|H]]
    | In _ (_ :: _) => destruct H as [H|H]
    | In _ [] => destruct H
    end.

(** Brings the record of a run to a list of events. *)
Ltac explicit_record :=
  unfold preamble, fatal, push_reply, upload_reply;
  repeat match goal with
         | H : confinement_of _ _ _ = _ |- _ => rewrite H; clear H
         | |- context [match ?r with Some _ => _ | None => _ end] => destruct r
         | |- context [if errors.Is ?e ?t then _ else _] => destruct (errors.Is e t)
         end;
  cbn.

Lemma git_command_of_bin (s : Session) :
  (2 <= length (Command s))%nat ->
  gc_of s = receivePackBin \/ gc_of s = uploadPackBin \/ gc_of s = uploadArchiveBin ->
  git_command s = true.
Proof.
  intros Hlen Hgc. unfold git_command. apply andb_true_iff. split.
  - apply Nat.leb_le. exact Hlen.
  - fold (gc_of s). destruct Hgc as [->|[->| ->]]; reflexivity.
Qed.


(** ** The authentication callbacks *)

(** C7: the public-key callback answers true exactly when the level the
    backend resolves for the presented key is at least ReadOnly; the
    keyboard-interactive callback answers true exactly when the backend
    allows keyless access and the public-key callback, asked without a key,
    answers true.  Both always answer. *)
Theorem auth_callbacks {store : Type} (cfg : Config store)
  (pk : option ssh_PublicKey) (st : store) :
  (exists b, flow (PublicKeyHandler cfg pk) st = Next b) /\
  (flow (PublicKeyHandler cfg pk) st = Next true <->
   (backend.to_int backend.ReadOnlyAccess
    <= backend.to_int (AccessLevel (Backend_ cfg) "" pk st))%Z) /\
  (exists b, flow (KeyboardInteractiveHandler cfg) st = Next b) /\
  (flow (KeyboardInteractiveHandler cfg) st = Next true <->
   AllowKeyless (Backend_ cfg) st = true /\
   flow (PublicKeyHandler cfg None) st = Next true).
Proof.
  assert (Hpk : forall k,
    flow (PublicKeyHandler cfg k) st =
    Next (backend.geb (AccessLevel (Backend_ cfg) "" k st) backend.ReadOnlyAccess)).
  { intros k. reflexivity. }
  assert (Hkb : flow (KeyboardInteractiveHandler cfg) st =
    if AllowKeyless (Backend_ cfg) st then flow (PublicKeyHandler cfg None) st
    else Next false).
  { unfold_go. cbn. destruct (AllowKeyless (Backend_ cfg) st); reflexivity. }
  repeat split.
  - eexists. apply Hpk.
  - rewrite Hpk. intros H. injection H as H. unfold backend.geb in H.
    apply Z.geb_le in H. exact H.
  - intros H. rewrite Hpk. f_equal. unfold backend.geb. apply Z.geb_le. exact H.
  - rewrite Hkb. destruct (AllowKeyless (Backend_ cfg) st); eexists;
      [apply Hpk | reflexivity].
  - rewrite Hkb in H. destruct (AllowKeyless (Backend_ cfg) st);
      [reflexivity | discriminate].
  - rewrite Hkb in H. destruct (AllowKeyless (Backend_ cfg) st);
      [exact H | discriminate].
  - intros [Ha Hp]. rewrite Hkb, Ha. exact Hp.
Qed.

(** ** Sessions that are not git commands *)

(** C8: when the command line has fewer than two tokens, or its first token
    does not start with [git], the literal does nothing (no event, the store
    as it was) and the handler built by [Middleware] is the next handler. *)
Theorem not_git_is_noop {store : Type} (pkg : Package store) (cfg : Config store)
  (sh : Session -> M store unit) (s : Session) (st : store) :
  (length (Command s) < 2)%nat \/
  strings.HasPrefix (nth 0 (Command s) "") "git" = false ->
  Middleware_body pkg cfg s st = (Next tt, st, []) /\
  Middleware pkg cfg sh s st = sh s st.
Proof.
  intros Hcmd.
  assert (Hg : git_command s = false).
  { unfold git_command. apply andb_false_iff.
    destruct Hcmd as [Hlen|Hpre]; [left|right; exact Hpre].
    apply Nat.leb_gt. exact Hlen. }
  by_outcome pkg cfg s st. split; [reflexivity|].
  destruct (sh s st) as [[r st'] t]. reflexivity.
Qed.

Lemma not_git_is_noop_witness :
  let s := demo.session ["ls"] None in
  Middleware_body demo.pkg demo.cfg s demo.st0 = (Next tt, demo.st0, []) /\
  Middleware demo.pkg demo.cfg (fun _ => emit (EvExit 0)) s demo.st0 =
    (Next tt, demo.st0, [EvExit 0]).
Proof.
  apply (not_git_is_noop demo.pkg demo.cfg (fun _ => emit (EvExit 0))
           (demo.session ["ls"] None) demo.st0).
  left. cbn. lia.
Defined.

(** ** Git commands that name no pack operation *)

(** C10: a command line of at least two tokens whose first token starts
    with [git] and is none of the three pack binaries still has its
    repository name sanitized, the access level resolved and the confinement
    check run (the two events of [preamble]).  When the check fails the
    session gets the fatal error; when it passes nothing is dispatched,
    nothing is written and no exit status is set.  The next handler runs in
    either case, from the store as it was. *)
Theorem other_git_command {store : Type} (pkg : Package store) (cfg : Config store)
  (sh : Session -> M store unit) (s : Session) (st : store) :
  (2 <= length (Command s))%nat ->
  strings.HasPrefix (gc_of s) "git" = true ->
  gc_of s <> receivePackBin ->
  gc_of s <> uploadPackBin ->
  gc_of s <> uploadArchiveBin ->
  Middleware_body pkg cfg s st =
    match confinement_of pkg cfg s with
    | Some err => (Returned, st, preamble pkg cfg s st ++ fatal err)
    | None => (Next tt, st, preamble pkg cfg s st)
    end /\
  (confinement_of pkg cfg s = None ->
   client_output (events (Middleware_body pkg cfg s) st) = [] /\
   exit_statuses (events (Middleware_body pkg cfg s) st) = [] /\
   forall ev, In ev (events (Middleware_body pkg cfg s) st) ->
              touches_repository ev = false) /\
  Middleware pkg cfg sh s st =
    match sh s st with
    | (r, st', t) => (r, st', events (Middleware_body pkg cfg s) st ++ t)
    end.
Proof.
  intros Hlen Hpre Hr Hu Ha.
  assert (Hg : git_command s = true).
  { unfold git_command. apply andb_true_iff. split; [|exact Hpre].
    apply Nat.leb_le. exact Hlen. }
  by_outcome pkg cfg s st.
  - match goal with H : confinement_of _ _ _ = _ |- _ => rewrite H end.
    split; [reflexivity|]. split; [discriminate|].
    destruct (sh s st) as [[r st'] t]. reflexivity.
  - match goal with H : confinement_of _ _ _ = _ |- _ => rewrite H end.
    split; [reflexivity|]. split.
    + intros _. split; [reflexivity|]. split; [reflexivity|].
      intros ev Hin. unfold preamble in Hin. cbn in Hin.
      destruct Hin as [<-|[<-|[]]]; reflexivity.
    + destruct (sh s st) as [[r st'] t]. reflexivity.
Qed.

Lemma other_git_command_witness :
  Middleware_body demo.pkg demo.cfg
    (demo.session ["git-lfs-authenticate"; "site.git"] None) demo.st0 =
    (Next tt, demo.st0,
     [EvAccessLevel "site" None backend.ReadOnlyAccess;
      EvEnsureWithin "/srv/soft-serve/repos" "site.git" None]) /\
  Middleware_body demo.pkg demo.cfg
    (demo.session ["git-lfs-authenticate"; "../../etc"] None) demo.st0 =
    (Returned, demo.st0,
     [EvAccessLevel "../../etc" None backend.ReadOnlyAccess;
      EvEnsureWithin "/srv/soft-serve/repos" "../../etc.git" (Some ErrSystemMalfunction);
      EvWritePktline ErrSystemMalfunction;
      EvExit 1]).
Proof.
  split.
  - apply (other_git_command demo.pkg demo.cfg (fun _ => ret tt)
             (demo.session ["git-lfs-authenticate"; "site.git"] None) demo.st0);
      cbn; try lia; try reflexivity; discriminate.
  - apply (other_git_command demo.pkg demo.cfg (fun _ => ret tt)
             (demo.session ["git-lfs-authenticate"; "../../etc"] None) demo.st0);
      cbn; try lia; try reflexivity; discriminate.
Defined.

(** ** Creation of repositories *)

(** C9: on the receive-pack branch (confinement passed, access at least
    ReadWrite) an error of the repository lookup, whatever the error is,
    is followed at once by [CreateRepository name false]; receive-pack runs
    only after it, from the store the creation left, and only when the
    creation succeeded. *)
Theorem lookup_error_leads_to_creation {store : Type} (pkg : Package store)
  (cfg : Config store) (s : Session) (st : store)
  (e : error) (res : option error) (st1 : store) :
  (2 <= length (Command s))%nat ->
  gc_of s = receivePackBin ->
  confinement_of pkg cfg s = None ->
  (backend.to_int backend.ReadWriteAccess
   <= backend.to_int (access_of pkg cfg s st))%Z ->
  Repository (Backend_ cfg) (name_of pkg s) st = Some e ->
  CreateRepository (Backend_ cfg) (name_of pkg s) false st = (res, st1) ->
  exists rest,
    events (Middleware_body pkg cfg s) st =
      preamble pkg cfg s st ++
      [EvRepository (name_of pkg s) (Some e);
       EvCreateRepository (name_of pkg s) false res] ++ rest /\
    rest =
      match res with
      | Some err => EvLogErrorf "failed to create repo: %s" err :: fatal err
      | None =>
          let r := fst (receivePack pkg s (repoDir_of pkg cfg s) st1) in
          EvPack OpReceivePack (repoDir_of pkg cfg s) r :: push_reply r
      end.
Proof.
  intros Hlen Hgc Hc Ha Hl Hcr.
  assert (Hg : git_command s = true) by (apply git_command_of_bin; auto).
  apply ltb_ge in Ha.
  by_outcome pkg cfg s st; same_call.
  - eexists. split; [reflexivity|]. cbn.
    match goal with H : receivePack _ _ _ _ = _ |- _ => rewrite H end.
    reflexivity.
  - eexists. split; reflexivity.
Qed.

Lemma lookup_error_leads_to_creation_witness :
  exists rest,
    events (Middleware_body demo.pkg demo.cfg
              (demo.session ["git-receive-pack"; "flaky"] (Some "alice"))) demo.st0 =
      [EvAccessLevel "flaky" (Some "alice") backend.ReadWriteAccess;
       EvEnsureWithin "/srv/soft-serve/repos" "flaky.git" None] ++
      [EvRepository "flaky" (Some (ErrNew "database is locked"));
       EvCreateRepository "flaky" false (Some (ErrNew "repository already exists"))] ++
      rest /\
    rest = EvLogErrorf "failed to create repo: %s" (ErrNew "repository already exists")
             :: fatal (ErrNew "repository already exists").
Proof.
  apply (lookup_error_leads_to_creation demo.pkg demo.cfg
           (demo.session ["git-receive-pack"; "flaky"] (Some "alice")) demo.st0
           (ErrNew "database is locked")
           (Some (ErrNew "repository already exists")) demo.st0);
    try reflexivity; cbn; lia.
Defined.

(** C4, as amended: [CreateRepository] is called only on the receive-pack
    branch: the first token is the receive-pack binary, the confinement
    check passed, the access level is at least ReadWrite and the backend's
    lookup of the repository returned an error, whatever the error is and
    whether or not the repository is in the store; the call names the
    sanitized repository and passes the flag [false].  On the upload-pack
    and upload-archive branches it is never called, whatever the access
    level is. *)
Theorem create_only_on_push {store : Type} (pkg : Package store)
  (cfg : Config store) (s : Session) (st : store) :
  (forall name flag res,
     In (EvCreateRepository name flag res) (events (Middleware_body pkg cfg s) st) ->
     gc_of s = receivePackBin /\
     git_command s = true /\
     confinement_of pkg cfg s = None /\
     name = name_of pkg s /\
     flag = false /\
     (backend.to_int backend.ReadWriteAccess
      <= backend.to_int (access_of pkg cfg s st))%Z /\
     (exists e, Repository (Backend_ cfg) name st = Some e) /\
     res = fst (CreateRepository (Backend_ cfg) name false st)) /\
  (gc_of s = uploadPackBin \/ gc_of s = uploadArchiveBin ->
   forall ev, In ev (events (Middleware_body pkg cfg s) st) -> is_create ev = false).
Proof.
  pose proof (fun a b => proj1 (ltb_ge a b)) as Hge.
  by_outcome pkg cfg s st; split;
    try (intros name flag res Hin; in_events Hin; try discriminate);
    try (intros Hup ev Hin; conflict; in_events Hin; subst ev; reflexivity).
  - injection Hin as <- <- <-.
    repeat split; auto; try (eexists; eassumption).
    match goal with H : CreateRepository _ _ _ _ = _ |- _ => now rewrite H end.
  - injection Hin as <- <- <-.
    repeat split; auto; try (eexists; eassumption).
    match goal with H : CreateRepository _ _ _ _ = _ |- _ => now rewrite H end.
Qed.

Lemma create_only_on_push_witness :
  In (EvCreateRepository "new" false None)
     (events (Middleware_body demo.pkg demo.cfg
                (demo.session ["git-receive-pack"; "new.git"] (Some "alice"))) demo.st0) /\
  (gc_of (demo.session ["git-receive-pack"; "new.git"] (Some "alice")) = receivePackBin /\
   (backend.to_int backend.ReadWriteAccess
    <= backend.to_int (demo.policy "new" (Some "alice") demo.st0))%Z /\
   exists e, demo.lookup "new" demo.st0 = Some e) /\
  forall ev,
    In ev (events (Middleware_body demo.pkg demo.cfg
                     (demo.session ["git-upload-pack"; "new.git"] (Some "admin"))) demo.st0) ->
    is_create ev = false.
Proof.
  assert (Hin : In (EvCreateRepository "new" false None)
     (events (Middleware_body demo.pkg demo.cfg
                (demo.session ["git-receive-pack"; "new.git"] (Some "alice"))) demo.st0)).
  { cbn. do 3 right. left. reflexivity. }
  split; [exact Hin|]. split.
  - destruct (proj1 (create_only_on_push demo.pkg demo.cfg
             (demo.session ["git-receive-pack"; "new.git"] (Some "alice")) demo.st0)
             _ _ _ Hin) as (Hgc & _ & _ & _ & _ & Hlvl & Hmiss & _).
    repeat split; assumption.
  - apply (proj2 (create_only_on_push demo.pkg demo.cfg
             (demo.session ["git-upload-pack"; "new.git"] (Some "admin")) demo.st0)).
    left. reflexivity.
Defined.

(** C4, as stated, fails: the repository [flaky] is in the store, its lookup
    fails with an error that is no not-found, and alice's push calls
    [CreateRepository] for it all the same. *)
Lemma create_only_on_push_counterexample :
  let s := demo.session ["git-receive-pack"; "flaky.git"] (Some "alice") in
  demo.has "flaky" demo.st0 = true /\
  Repository demo.be "flaky" demo.st0 = Some (ErrNew "database is locked") /\
  In (EvCreateRepository "flaky" false (Some (ErrNew "repository already exists")))
     (events (Middleware_body demo.pkg demo.cfg s) demo.st0) /\
  ~ (forall name flag res,
       In (EvCreateRepository name flag res)
          (events (Middleware_body demo.pkg demo.cfg s) demo.st0) ->
       demo.has name demo.st0 = false).
Proof.
  assert (Hin : In (EvCreateRepository "flaky" false
                      (Some (ErrNew "repository already exists")))
     (events (Middleware_body demo.pkg demo.cfg
                (demo.session ["git-receive-pack"; "flaky.git"] (Some "alice")))
        demo.st0)).
  { cbn. do 3 right. left. reflexivity. }
  cbv zeta. split; [reflexivity|]. split; [reflexivity|]. split; [exact Hin|].
  intros H. specialize (H _ _ _ Hin). discriminate H.
Qed.

(** ** Denied and served operations *)

(** C5, as amended: a receive-pack session whose access level is below
    ReadWrite is ended with exactly one pkt-line and exit status 1, without
    any repository lookup, creation or pack invocation, and the store is
    left as it was.  The pkt-line is [ErrNotAuthed] when the confinement
    check passed; when the check failed it is the error of the check. *)
Theorem push_denied {store : Type} (pkg : Package store) (cfg : Config store)
  (s : Session) (st : store) :
  (2 <= length (Command s))%nat ->
  gc_of s = receivePackBin ->
  (backend.to_int (access_of pkg cfg s st)
   < backend.to_int backend.ReadWriteAccess)%Z ->
  flow (Middleware_body pkg cfg s) st = Returned /\
  client_output (events (Middleware_body pkg cfg s) st) =
    [match confinement_of pkg cfg s with
     | None => ErrNotAuthed
     | Some err => err
     end] /\
  exit_statuses (events (Middleware_body pkg cfg s) st) = [1%Z] /\
  (forall ev, In ev (events (Middleware_body pkg cfg s) st) ->
              touches_repository ev = false) /\
  final (Middleware_body pkg cfg s) st = st.
Proof.
  intros Hlen Hgc Hlow.
  assert (Hg : git_command s = true) by (apply git_command_of_bin; auto).
  apply ltb_lt in Hlow.
  by_outcome pkg cfg s st;
    match goal with H : confinement_of _ _ _ = _ |- _ => rewrite H end;
    (repeat split; try reflexivity;
     intros ev Hin; in_events Hin; subst ev; reflexivity).
Qed.

Lemma push_denied_witness :
  client_output
    (events (Middleware_body demo.pkg demo.cfg
               (demo.session ["git-receive-pack"; "site.git"] (Some "bob"))) demo.st0) =
    [ErrNotAuthed] /\
  final (Middleware_body demo.pkg demo.cfg
           (demo.session ["git-receive-pack"; "site.git"] (Some "bob"))) demo.st0 =
    demo.st0.
Proof.
  destruct (push_denied demo.pkg demo.cfg
              (demo.session ["git-receive-pack"; "site.git"] (Some "bob")) demo.st0)
    as (_ & Hout & _ & _ & Hst).
  - cbn. lia.
  - reflexivity.
  - cbn. lia.
  - split; [exact Hout | exact Hst].
Defined.

(** C5, as stated, fails: a receive-pack session below ReadWrite whose path
    escapes the repository directory is not answered with [ErrNotAuthed] but
    with the error of the confinement check. *)
Lemma push_denied_counterexample :
  let s := demo.session ["git-receive-pack"; "../x"] None in
  gc_of s = receivePackBin /\
  (backend.to_int (access_of demo.pkg demo.cfg s demo.st0)
   < backend.to_int backend.ReadWriteAccess)%Z /\
  client_output (events (Middleware_body demo.pkg demo.cfg s) demo.st0) =
    [ErrSystemMalfunction] /\
  client_output (events (Middleware_body demo.pkg demo.cfg s) demo.st0) <>
    [ErrNotAuthed].
Proof.
  cbn. repeat split; try reflexivity; try lia. discriminate.
Qed.

(** C6, as amended: for an upload-pack or upload-archive session whose path
    passes the confinement check, an access level below ReadOnly ends the
    session with [ErrNotAuthed]; otherwise the pack operation that matches
    the first token is invoked on the repository directory, and its result
    is answered as follows: nothing on success, [ErrInvalidRepo] itself
    when the error is or wraps [ErrInvalidRepo], [ErrSystemMalfunction] for
    every other error.  When the confinement check fails no pack operation
    is invoked and the session is ended with the error of the check. *)
Theorem fetch_dispatch {store : Type} (pkg : Package store) (cfg : Config store)
  (s : Session) (st : store) :
  (2 <= length (Command s))%nat ->
  gc_of s = uploadPackBin \/ gc_of s = uploadArchiveBin ->
  (gc_of s = uploadPackBin ->
   upload_fn pkg s = uploadPack pkg /\ upload_op s = OpUploadPack) /\
  (gc_of s = uploadArchiveBin ->
   upload_fn pkg s = uploadArchive pkg /\ upload_op s = OpUploadArchive) /\
  match confinement_of pkg cfg s with
  | Some err =>
      Middleware_body pkg cfg s st =
        (Returned, st, preamble pkg cfg s st ++ fatal err)
  | None =>
      if backend.ltb (access_of pkg cfg s st) backend.ReadOnlyAccess
      then
        Middleware_body pkg cfg s st =
          (Returned, st, preamble pkg cfg s st ++ fatal ErrNotAuthed)
      else
        let r := fst (upload_fn pkg s s (repoDir_of pkg cfg s) st) in
        Middleware_body pkg cfg s st =
          (Next tt, snd (upload_fn pkg s s (repoDir_of pkg cfg s) st),
           preamble pkg cfg s st ++
           [EvPack (upload_op s) (repoDir_of pkg cfg s) r] ++ upload_reply r) /\
        client_output (events (Middleware_body pkg cfg s) st) =
          match r with
          | None => []
          | Some e => if errors.Is e ErrInvalidRepo then [ErrInvalidRepo]
                      else [ErrSystemMalfunction]
          end
  end.
Proof.
  intros Hlen Hgc.
  assert (Hg : git_command s = true) by (apply git_command_of_bin; auto).
  split; [|split].
  - intros E. unfold upload_fn, upload_op. rewrite E. split; reflexivity.
  - intros E. unfold upload_fn, upload_op. rewrite E. split; reflexivity.
  - by_outcome pkg cfg s st;
      repeat match goal with
             | H : confinement_of _ _ _ = _ |- _ => rewrite H; clear H
             | H : backend.ltb _ _ = _ |- _ => rewrite H; clear H
             | H : upload_fn _ _ _ _ _ = _ |- _ => rewrite H; clear H
             end;
      try reflexivity.
    cbn. split; [reflexivity|].
    destruct r as [e|]; [|reflexivity].
    unfold upload_reply. destruct (errors.Is e ErrInvalidRepo); reflexivity.
Qed.

Lemma fetch_dispatch_witness :
  Middleware_body demo.pkg demo.cfg
    (demo.session ["git-upload-pack"; "nothere.git"] None) demo.st0 =
    (Next tt, demo.st0,
     [EvAccessLevel "nothere" None backend.ReadOnlyAccess;
      EvEnsureWithin "/srv/soft-serve/repos" "nothere.git" None;
      EvPack OpUploadPack "/srv/soft-serve/repos/nothere.git"
        (Some (ErrWrap "open repository" ErrInvalidRepo));
      EvWritePktline ErrInvalidRepo;
      EvExit 1]) /\
  client_output
    (events (Middleware_body demo.pkg demo.cfg
               (demo.session ["git-upload-pack"; "nothere.git"] None)) demo.st0) =
    [ErrInvalidRepo].
Proof.
  refine (proj2 (proj2 (fetch_dispatch demo.pkg demo.cfg
            (demo.session ["git-upload-pack"; "nothere.git"] None) demo.st0 _ _))).
  - cbn. lia.
  - left. reflexivity.
Defined.

(** C6, as stated, fails: an upload-pack session with access ReadOnly whose
    path escapes the repository directory has no pack operation invoked. *)
Lemma fetch_dispatch_counterexample :
  let s := demo.session ["git-upload-pack"; "../../etc"] None in
  gc_of s = uploadPackBin /\
  (backend.to_int backend.ReadOnlyAccess
   <= backend.to_int (access_of demo.pkg demo.cfg s demo.st0))%Z /\
  events (Middleware_body demo.pkg demo.cfg s) demo.st0 =
    [EvAccessLevel "../../etc" None backend.ReadOnlyAccess;
     EvEnsureWithin "/srv/soft-serve/repos" "../../etc.git" (Some ErrSystemMalfunction);
     EvWritePktline ErrSystemMalfunction;
     EvExit 1] /\
  ~ exists ev, In ev (events (Middleware_body demo.pkg demo.cfg s) demo.st0) /\
               is_pack ev = true.
Proof.
  cbn. repeat split; try reflexivity; try lia.
  intros [ev [Hin Hp]].
  destruct Hin as [<-|[<-|[<-|[<-|[]]]]]; discriminate.
Qed.

(** ** The order of the stages *)




(** ** The access-level queries *)

(** C3, as amended: acceptance and authorization ask the same backend
    function, [AccessLevel] of the configured backend, with the same key,
    but not for the same repository: [PublicKeyHandler] asks for the empty
    repository name, [Middleware] for the sanitized name of the command.
    The two queries coincide when that name is empty.  The thresholds are
    ReadOnly for acceptance and for upload-pack and upload-archive, and
    ReadWrite for receive-pack: a session that passed the confinement check
    is ended with [ErrNotAuthed] right after it exactly when its level is
    below the threshold of its operation. *)
Theorem access_level_queries {store : Type} (pkg : Package store)
  (cfg : Config store) (s : Session) (st : store) :
  git_command s = true ->
  events (PublicKeyHandler cfg (PublicKey s)) st =
    [EvAccessLevel "" (PublicKey s) (AccessLevel (Backend_ cfg) "" (PublicKey s) st)] /\
  flow (PublicKeyHandler cfg (PublicKey s)) st =
    Next (backend.geb (AccessLevel (Backend_ cfg) "" (PublicKey s) st)
                      backend.ReadOnlyAccess) /\
  access_queries (events (Middleware_body pkg cfg s) st) =
    [(name_of pkg s, PublicKey s)] /\
  (forall repo pk lvl,
     In (EvAccessLevel repo pk lvl) (events (Middleware_body pkg cfg s) st) ->
     lvl = AccessLevel (Backend_ cfg) repo pk st) /\
  (name_of pkg s = "" -> same_access_query pkg cfg s st) /\
  (confinement_of pkg cfg s = None ->
   (events (Middleware_body pkg cfg s) st =
      preamble pkg cfg s st ++ fatal ErrNotAuthed <->
    (gc_of s = receivePackBin /\
     backend.ltb (access_of pkg cfg s st) backend.ReadWriteAccess = true) \/
    ((gc_of s = uploadPackBin \/ gc_of s = uploadArchiveBin) /\
     backend.ltb (access_of pkg cfg s st) backend.ReadOnlyAccess = true))).
Proof.
  intros Hg.
  assert (Hq : access_queries (events (Middleware_body pkg cfg s) st) =
               [(name_of pkg s, PublicKey s)]).
  { by_outcome pkg cfg s st; explicit_record; reflexivity. }
  split; [reflexivity|]. split; [reflexivity|]. split; [exact Hq|].
  split; [|split].
  - intros repo pk lvl Hin.
    by_outcome pkg cfg s st; in_events Hin; try discriminate;
      injection Hin as <- <- <-; reflexivity.
  - intros Hname. unfold same_access_query. rewrite Hq, Hname. reflexivity.
  - intros Hc. split.
    + intros Hin.
      by_outcome pkg cfg s st; auto;
        unfold preamble, fatal, push_reply, upload_reply in Hin;
        repeat match type of Hin with
               | context [match ?r with Some _ => _ | None => _ end] => destruct r
               | context [if errors.Is ?e ?t then _ else _] => destruct (errors.Is e t)
               end;
        discriminate Hin.
    + intros [[Hgc Ha]|[Hgc Ha]];
        by_outcome pkg cfg s st; unfold preamble, fatal; cbn; auto.
Qed.

Lemma access_level_queries_witness :
  access_queries
    (events (PublicKeyHandler demo.cfg (Some "alice")) demo.st0) =
    [("", Some "alice")] /\
  access_queries
    (events (Middleware_body demo.pkg demo.cfg
               (demo.session ["git-upload-pack"; "site.git"] (Some "alice"))) demo.st0) =
    [("site", Some "alice")].
Proof.
  destruct (access_level_queries demo.pkg demo.cfg
              (demo.session ["git-upload-pack"; "site.git"] (Some "alice")) demo.st0)
    as (Hpk & _ & Hmw & _).
  - reflexivity.
  - split; [|exact Hmw].
    change (access_queries
              (events (PublicKeyHandler demo.cfg
                 (PublicKey (demo.session ["git-upload-pack"; "site.git"] (Some "alice"))))
                 demo.st0) = [("", Some "alice")]).
    rewrite Hpk. reflexivity.
Defined.

(** C3, as stated, fails: [alice] is accepted on the level of the empty
    repository name (ReadWrite), while her fetch of [private] is decided on
    the level of that repository (NoAccess) and denied. *)
Lemma access_level_queries_counterexample :
  let s := demo.session ["git-upload-pack"; "private.git"] (Some "alice") in
  access_queries (events (PublicKeyHandler demo.cfg (PublicKey s)) demo.st0) =
    [("", Some "alice")] /\
  access_queries (events (Middleware_body demo.pkg demo.cfg s) demo.st0) =
    [("private", Some "alice")] /\
  ~ same_access_query demo.pkg demo.cfg s demo.st0 /\
  flow (PublicKeyHandler demo.cfg (PublicKey s)) demo.st0 = Next true /\
  client_output (events (Middleware_body demo.pkg demo.cfg s) demo.st0) =
    [ErrNotAuthed].
Proof.
  cbn. repeat split. intros H. discriminate H.
Qed.

(** ** What the client is told when a session is ended *)

(** X4: a failed creation is logged, and the same error is then written to the
    client as it is. *)
Lemma create_failure_reply {store : Type} (pkg : Package store)
  (cfg : Config store) (s : Session) (st : store)
  (e err : error) (st1 : store) :
  git_command s = true ->
  gc_of s = receivePackBin ->
  confinement_of pkg cfg s = None ->
  backend.ltb (access_of pkg cfg s st) backend.ReadWriteAccess = false ->
  Repository (Backend_ cfg) (name_of pkg s) st = Some e ->
  CreateRepository (Backend_ cfg) (name_of pkg s) false st = (Some err, st1) ->
  server_log (events (Middleware_body pkg cfg s) st) = [err] /\
  client_output (events (Middleware_body pkg cfg s) st) = [err].
Proof.
  intros Hg Hgc Hc Ha Hl Hcr.
  by_outcome pkg cfg s st; same_call. split; reflexivity.
Qed.

Lemma create_failure_reply_witness :
  client_output
    (events (Middleware_body demo.pkg demo.cfg
               (demo.session ["git-receive-pack"; "flaky.git"] (Some "alice"))) demo.st0) =
    [ErrNew "repository already exists"].
Proof.
  apply (create_failure_reply demo.pkg demo.cfg
           (demo.session ["git-receive-pack"; "flaky.git"] (Some "alice")) demo.st0
           (ErrNew "database is locked") (ErrNew "repository already exists") demo.st0);
    reflexivity.
Defined.

(** The error of a failed confinement check is written to the client as it
    is, too. *)
Lemma confinement_failure_reply {store : Type} (pkg : Package store)
  (cfg : Config store) (s : Session) (st : store) (err : error) :
  git_command s = true ->
  confinement_of pkg cfg s = Some err ->
  server_log (events (Middleware_body pkg cfg s) st) = [] /\
  client_output (events (Middleware_body pkg cfg s) st) = [err].
Proof.
  intros Hg Hc.
  by_outcome pkg cfg s st; same_call. split; reflexivity.
Qed.

(** What follows a failed pack operation is [ErrInvalidRepo] or
    [ErrSystemMalfunction]; which of the two, [pack_result_decides_reply]
    tells. *)
Lemma pack_failure_reply {store : Type} (pkg : Package store)
  (cfg : Config store) (s : Session) (st : store)
  (pre post : list Event) (op : PackOp) (dir : string) (e : error) :
  events (Middleware_body pkg cfg s) st = pre ++ EvPack op dir (Some e) :: post ->
  client_output (events (Middleware_body pkg cfg s) st) = [ErrInvalidRepo] \/
  client_output (events (Middleware_body pkg cfg s) st) = [ErrSystemMalfunction].
Proof.
  intros Heq.
  assert (Hin : In (EvPack op dir (Some e)) (events (Middleware_body pkg cfg s) st)).
  { rewrite Heq. apply in_or_app. right. left. reflexivity. }
  clear Heq.
  by_outcome pkg cfg s st; in_events Hin; try discriminate;
    injection Hin as ? ? ?; subst; unfold preamble, upload_reply; cbn;
    try destruct (errors.Is e ErrInvalidRepo); cbn; auto.
Qed.


(** C1: the client of a session that fails is to be told a generic failure
    only.  The code does so after a failed pack operation, but not after a
    failed creation: alice's push to the new repository [full], whose
    creation fails, logs the backend's error and then writes that same
    error, with the path of the repository in it, to the client. *)
Theorem create_failure_reaches_client :
  let s := demo.session ["git-receive-pack"; "full.git"] (Some "alice") in
  let cause :=
    ErrNew "mkdir /srv/soft-serve/repos/full.git: no space left on device" in
  CreateRepository demo.be "full" false demo.st0 = (Some cause, demo.st0) /\
  server_log (events (Middleware_body demo.pkg demo.cfg s) demo.st0) = [cause] /\
  client_output (events (Middleware_body demo.pkg demo.cfg s) demo.st0) = [cause] /\
  client_output (events (Middleware_body demo.pkg demo.cfg s) demo.st0)
    <> [ErrSystemMalfunction].
Proof.
  cbn. repeat split. discriminate.
Qed.

(** ** Further properties of the handler *)

(** X1: the handler built by [Middleware] hands every session to the next
    handler once the literal is done, also when the literal ended the session
    with a fatal error; the next handler starts from the store the literal
    left. *)
Theorem next_handler_always_runs {store : Type} (pkg : Package store)
  (cfg : Config store) (sh : Session -> M store unit) (s : Session) (st : store) :
  Middleware pkg cfg sh s st =
    match sh s (final (Middleware_body pkg cfg s) st) with
    | (r, st', t) => (r, st', events (Middleware_body pkg cfg s) st ++ t)
    end.
Proof.
  unfold Middleware, call, bind, final, events.
  destruct (Middleware_body pkg cfg s st) as [[f st1] t1]. cbn.
  destruct (sh s st1) as [[r st2] t2]. reflexivity.
Qed.

(** X2: a run of the literal writes at most one pkt-line, and it sets the exit
    status, to 1, exactly when it writes one. *)
Theorem fatal_at_most_once {store : Type} (pkg : Package store)
  (cfg : Config store) (s : Session) (st : store) :
  (client_output (events (Middleware_body pkg cfg s) st) = [] /\
   exit_statuses (events (Middleware_body pkg cfg s) st) = []) \/
  (exists v, client_output (events (Middleware_body pkg cfg s) st) = [v] /\
             exit_statuses (events (Middleware_body pkg cfg s) st) = [1%Z]).
Proof.
  by_outcome pkg cfg s st; explicit_record; eauto.
Qed.


(** ** What the handlers ask of the backend *)

(** X6: when the backend does not allow keyless access, the
    keyboard-interactive callback refuses without asking the backend for an
    access level; when it does, the callback asks once, for the empty
    repository name and no key. *)
Theorem keyboard_interactive_asks_once {store : Type} (c : Config store) (st : store) :
  (AllowKeyless (Backend_ c) st = false ->
   KeyboardInteractiveHandler c st = (Next false, st, [EvAllowKeyless false])) /\
  (AllowKeyless (Backend_ c) st = true ->
   KeyboardInteractiveHandler c st =
     (Next (backend.geb (AccessLevel (Backend_ c) "" None st) backend.ReadOnlyAccess),
      st,
      [EvAllowKeyless true;
       EvAccessLevel "" None (AccessLevel (Backend_ c) "" None st)])).
Proof.
  split; intros H; unfold_go; cbn; rewrite H; reflexivity.
Qed.

(** X7: a pack operation runs only for a session that is authorized for it:
    the confinement check passed, the first token is the binary of that
    operation, and the access level is at least ReadWrite for receive-pack
    and at least ReadOnly for upload-pack and upload-archive. *)
Theorem pack_requires_authorization {store : Type} (pkg : Package store)
  (c : Config store) (s : Session) (st : store)
  (op : PackOp) (dir : string) (r : option error) :
  In (EvPack op dir r) (events (Middleware_body pkg c s) st) ->
  (2 <= length (Command s))%nat /\
  confinement_of pkg c s = None /\
  match op with
  | OpReceivePack =>
      gc_of s = receivePackBin /\
      (backend.to_int backend.ReadWriteAccess
       <= backend.to_int (access_of pkg c s st))%Z
  | OpUploadPack =>
      gc_of s = uploadPackBin /\
      (backend.to_int backend.ReadOnlyAccess
       <= backend.to_int (access_of pkg c s st))%Z
  | OpUploadArchive =>
      gc_of s = uploadArchiveBin /\
      (backend.to_int backend.ReadOnlyAccess
       <= backend.to_int (access_of pkg c s st))%Z
  end.
Proof.
  intros Hin.
  assert (Hlen : git_command s = true -> (2 <= length (Command s))%nat).
  { unfold git_command. intros H. apply andb_true_iff in H.
    apply Nat.leb_le. tauto. }
  by_outcome pkg c s st; in_events Hin; try discriminate;
    injection Hin as ? ? ?; subst;
    (split; [auto|]); (split; [assumption|]);
    try (split; [assumption | apply ltb_ge; assumption]).
  match goal with H : _ \/ _ |- _ => destruct H as [E|E] end.
  - replace (upload_op s) with OpUploadPack
      by (unfold upload_op; rewrite E; reflexivity).
    split; [assumption | apply ltb_ge; assumption].
  - replace (upload_op s) with OpUploadArchive
      by (unfold upload_op; rewrite E; reflexivity).
    split; [assumption | apply ltb_ge; assumption].
Qed.

Lemma pack_requires_authorization_witness :
  gc_of (demo.session ["git-upload-pack"; "site.git"] None) = uploadPackBin /\
  (backend.to_int backend.ReadOnlyAccess
   <= backend.to_int (demo.policy "site" None demo.st0))%Z.
Proof.
  refine (proj2 (proj2 (pack_requires_authorization demo.pkg demo.cfg
            (demo.session ["git-upload-pack"; "site.git"] None) demo.st0
            OpUploadPack "/srv/soft-serve/repos/site.git" None _))).
  cbn. right. right. left. reflexivity.
Defined.

(** X8: on the upload-pack and upload-archive branches the backend is asked
    for the access level and for nothing else: the repository is neither
    looked up nor created, so whether it exists is left to the pack
    operation. *)
Theorem fetch_asks_backend_for_access_only {store : Type} (pkg : Package store)
  (c : Config store) (s : Session) (st : store) (ev : Event) :
  gc_of s = uploadPackBin \/ gc_of s = uploadArchiveBin ->
  In ev (events (Middleware_body pkg c s) st) ->
  is_repository_lookup ev = false /\ is_create ev = false.
Proof.
  intros Hgc Hin.
  by_outcome pkg c s st; in_events Hin; subst ev; split; reflexivity.
Qed.

Lemma fetch_asks_backend_for_access_only_witness :
  is_repository_lookup
    (EvPack OpUploadPack "/srv/soft-serve/repos/nothere.git"
       (Some (ErrWrap "open repository" ErrInvalidRepo))) = false /\
  is_create
    (EvPack OpUploadPack "/srv/soft-serve/repos/nothere.git"
       (Some (ErrWrap "open repository" ErrInvalidRepo))) = false.
Proof.
  apply (fetch_asks_backend_for_access_only demo.pkg demo.cfg
           (demo.session ["git-upload-pack"; "nothere.git"] None) demo.st0).
  - left. reflexivity.
  - cbn. right. right. left. reflexivity.
Defined.

(** ** After a fatal error *)




(** X10: the literal logs exactly the errors of the creations that failed:
    a denied session, a session whose path escapes and a failed pack
    operation leave no line in the server log. *)
Theorem log_holds_create_errors {store : Type} (pkg : Package store)
  (c : Config store) (s : Session) (st : store) :
  server_log (events (Middleware_body pkg c s) st) =
  create_errors (events (Middleware_body pkg c s) st).
Proof.
  by_outcome pkg c s st; explicit_record; reflexivity.
Qed.

(** X11: every call of a run is about the one repository the session names:
    the backend is asked about the sanitized name only, with the session's
    key; a creation passes the flag [false]; the confinement check gets the
    repository directory and the name with its suffix, and a pack operation
    gets the join of exactly these two. *)
Theorem calls_concern_one_repository {store : Type} (pkg : Package store)
  (c : Config store) (s : Session) (st : store) :
  Forall (concerns pkg c s) (events (Middleware_body pkg c s) st).
Proof.
  by_outcome pkg c s st; explicit_record;
    repeat constructor.
Qed.

(** ** The reply to a pack operation *)

(** X12: the result of the pack operation decides how the session ends.
    After a success nothing is written and no exit status is set.  An
    error of receive-pack is answered [ErrSystemMalfunction] whatever it
    is, also when it is [ErrInvalidRepo]; an error of upload-pack or
    upload-archive is answered [ErrInvalidRepo] when it is or wraps that
    error and [ErrSystemMalfunction] otherwise.  The exit status is set,
    to 1, exactly after an error. *)
Theorem pack_result_decides_reply {store : Type} (pkg : Package store)
  (c : Config store) (s : Session) (st : store)
  (op : PackOp) (dir : string) (r : option error) :
  In (EvPack op dir r) (events (Middleware_body pkg c s) st) ->
  client_output (events (Middleware_body pkg c s) st) = reply_to op r /\
  exit_statuses (events (Middleware_body pkg c s) st) =
    match r with Some _ => [1%Z] | None => [] end.
Proof.
  intros Hin.
  by_outcome pkg c s st; in_events Hin; try discriminate;
    injection Hin as ? ? ?; subst;
    unfold preamble, upload_op, upload_reply, push_reply, reply_to;
    repeat match goal with
           | |- context [match ?x with Some _ => _ | None => _ end] => destruct x
           | |- context [if ?b then _ else _] => destruct b
           end;
    split; reflexivity.
Qed.

Lemma pack_result_decides_reply_witness :
  client_output
    (events (Middleware_body demo.pkg demo.cfg
               (demo.session ["git-receive-pack"; "site.git"] (Some "alice"))) demo.st0) =
    [] /\
  exit_statuses
    (events (Middleware_body demo.pkg demo.cfg
               (demo.session ["git-receive-pack"; "site.git"] (Some "alice"))) demo.st0) =
    [].
Proof.
  apply (pack_result_decides_reply demo.pkg demo.cfg
           (demo.session ["git-receive-pack"; "site.git"] (Some "alice")) demo.st0
           OpReceivePack "/srv/soft-serve/repos/site.git" None).
  cbn. do 3 right. left. reflexivity.
Defined.

(** ** The tokens the literal reads *)

(** X13: the literal reads the first two tokens of the command line and the
    key, and nothing else of the session: two sessions that agree on these,
    and on which the pack operations behave alike, have the same run. *)
Theorem only_two_tokens_read {store : Type} (pkg : Package store)
  (c : Config store) (s s' : Session) (st : store) :
  (2 <= length (Command s))%nat ->
  (2 <= length (Command s'))%nat ->
  nth 0 (Command s) "" = nth 0 (Command s') "" ->
  nth 1 (Command s) "" = nth 1 (Command s') "" ->
  PublicKey s = PublicKey s' ->
  (forall dir st1, receivePack pkg s dir st1 = receivePack pkg s' dir st1) ->
  (forall dir st1, uploadPack pkg s dir st1 = uploadPack pkg s' dir st1) ->
  (forall dir st1, uploadArchive pkg s dir st1 = uploadArchive pkg s' dir st1) ->
  Middleware_body pkg c s st = Middleware_body pkg c s' st.
Proof.
  intros Hl Hl' H0 H1 Hk Hr Hu Ha.
  apply Nat.leb_le in Hl. apply Nat.leb_le in Hl'.
  unfold_go. rewrite Hl, Hl', <- H0, <- H1, <- Hk. cbn.
  repeat (try rewrite <- Hr; try rewrite <- Hu; try rewrite <- Ha;
          match goal with
          | |- ?x = ?x => reflexivity
          | |- context [strings.HasPrefix ?a ?b] => destruct (strings.HasPrefix a b)
          | |- context [ensureWithin ?p ?a ?b] => destruct (ensureWithin p a b)
          | |- context [String.eqb ?a ?b] => destruct (String.eqb a b)
          | |- context [backend.ltb ?a ?b] => destruct (backend.ltb a b)
          | |- context [Repository ?b ?n ?t] => destruct (Repository b n t)
          | |- context [CreateRepository ?b ?n ?f ?t] =>
              destruct (CreateRepository b n f t) as [[?|] ?]
          | |- context [receivePack ?p ?x ?d ?t] =>
              destruct (receivePack p x d t) as [[?|] ?]
          | |- context [uploadPack ?p ?x ?d ?t] =>
              destruct (uploadPack p x d t) as [[?|] ?]
          | |- context [uploadArchive ?p ?x ?d ?t] =>
              destruct (uploadArchive p x d t) as [[?|] ?]
          | |- context [errors.Is ?e ?t] => destruct (errors.Is e t)
          end; cbn).
Qed.

Lemma only_two_tokens_read_witness :
  Middleware_body demo.pkg demo.cfg
    (demo.session ["git-upload-pack"; "site.git"; "--upload-pack=/bin/sh"] None)
    demo.st0 =
  Middleware_body demo.pkg demo.cfg
    (demo.session ["git-upload-pack"; "site.git"] None) demo.st0.
Proof.
  apply (only_two_tokens_read demo.pkg demo.cfg
           (demo.session ["git-upload-pack"; "site.git"; "--upload-pack=/bin/sh"] None)
           (demo.session ["git-upload-pack"; "site.git"] None) demo.st0);
    try reflexivity; cbn; lia.
Defined.

(** ** The construction of the server *)

Lemma duration_exact (seconds : Z) :
  (0 < seconds <= 9223372036)%Z ->
  time.mul seconds time.Second = (seconds * 1000000000)%Z.
Proof.
  intros H. unfold time.mul, time.int64, time.Second.
  rewrite Z.mod_small; lia.
Qed.

Lemma duration_wrapped (seconds : Z) :
  (9223372036 < seconds <= 18446744073)%Z ->
  time.mul seconds time.Second = (seconds * 1000000000 - 2 ^ 64)%Z.
Proof.
  intros H. unfold time.mul, time.int64, time.Second.
  replace (seconds * 1000000000 + 2 ^ 63)%Z
    with ((seconds * 1000000000 - 2 ^ 63) + 1 * 2 ^ 64)%Z by lia.
  rewrite Z.mod_add by lia. rewrite Z.mod_small; lia.
Qed.

Lemma timeout_rule_holds (seconds unset : Z) :
  timeout_rule seconds unset
    (if (seconds >? 0)%Z then time.mul seconds time.Second else unset).
Proof.
  unfold timeout_rule. split; [|split]; intros Hs.
  - destruct (Z.gtb_spec seconds 0); [lia | reflexivity].
  - destruct (Z.gtb_spec seconds 0); [|lia]. apply duration_exact. exact Hs.
  - destruct (Z.gtb_spec seconds 0); [|lia].
    rewrite duration_wrapped by exact Hs. split; [reflexivity | lia].
Qed.

(** X14: [NewSSHServer] returns the error of [wish.NewServer] when that
    fails.  Otherwise it returns the server [wish.NewServer] built, with the
    given configuration and with each of the two timeouts set from the
    configuration on its own, whatever the other one is: a timeout that is
    not positive leaves the server's timeout as it was; a timeout of up to
    9223372036 seconds is set to that many seconds, in nanoseconds; beyond
    (up to 18446744073 seconds) the product has wrapped around and the
    server's timeout is negative. *)
Theorem NewSSHServer_timeouts {store hooks impl : Type}
  (NewServer : list (wish.Option hooks) -> ssh.Server impl + error)
  (c : ServerConfig store) (h : hooks) :
  match NewServer (server_options c h) with
  | inr err => NewSSHServer NewServer c h = inr err
  | inl srv0 =>
      exists s,
        NewSSHServer NewServer c h = inl s /\
        cfg s = c /\
        ssh.rest (srv s) = ssh.rest srv0 /\
        timeout_rule (config.MaxTimeout (SSH c))
          (ssh.MaxTimeout srv0) (ssh.MaxTimeout (srv s)) /\
        timeout_rule (config.IdleTimeout (SSH c))
          (ssh.IdleTimeout srv0) (ssh.IdleTimeout (srv s))
  end.
Proof.
  unfold NewSSHServer.
  destruct (NewServer (server_options c h)) as [srv0|err]; [|reflexivity].
  eexists. split; [reflexivity|]. cbn [srv cfg].
  split; [reflexivity|]. split; [|split].
  - destruct (config.MaxTimeout (SSH c) >? 0)%Z,
             (config.IdleTimeout (SSH c) >? 0)%Z; reflexivity.
  - eapply eq_ind; [apply timeout_rule_holds|].
    destruct (config.MaxTimeout (SSH c) >? 0)%Z,
             (config.IdleTimeout (SSH c) >? 0)%Z; reflexivity.
  - eapply eq_ind; [apply timeout_rule_holds|].
    destruct (config.MaxTimeout (SSH c) >? 0)%Z,
             (config.IdleTimeout (SSH c) >? 0)%Z; reflexivity.
Qed.
